(** * pyetltools: context registry, Netezza dialect overrides, misc helpers

    A shallow embedding of
      - [pyetltools/core/context.py]   (module [context]),
      - [pyetltools/tools/misc.py]     (module [misc]),
      - [pyetltools/data/sqlalchemy/netezza_dialect.py]
                                       (module [netezza_dialect]),
    followed by the properties proved about them.

    Python exceptions are values of [exn] carried by the [result] monad;
    Python [str] is [string], read as a sequence of code points below 256;
    Python [int] is [Z]; [None] is the [None] of an [option]. *)

From Stdlib Require Import ZArith Ascii String Decimal DecimalString DecimalPos DecimalZ.
From stdpp Require Import base option list gmap strings.

Local Open Scope string_scope.
Local Open Scope Z_scope.

(** ** Exceptions and results *)

Inductive exn : Type :=
  | Exception (msg : string)
  | KeyError (key : Z)
  | IndexError (msg : string)
  | AttributeError (msg : string)
  | NoSuchTableError (table_name : string).

Inductive result (A : Type) : Type :=
  | Ok (a : A)
  | Raise (e : exn).
Arguments Ok {A} a.
Arguments Raise {A} e.

#[global] Instance result_ret : MRet result := @Ok.
#[global] Instance result_bind : MBind result := fun A B f m =>
  match m with
  | Ok a => f a
  | Raise e => Raise e
  end.

Definition is_Ok {A} (r : result A) : bool :=
  match r with Ok _ => true | Raise _ => false end.

(** ** The Python builtins the sources use *)

Module py.

(** [sep.join(items)] *)
Fixpoint join (sep : string) (items : list string) : string :=
  match items with
  | [] => ""
  | [x] => x
  | x :: rest => x ++ sep ++ join sep rest
  end.

(** iterating over a [str] yields its one-character strings *)
Fixpoint chars (s : string) : list string :=
  match s with
  | EmptyString => []
  | String c rest => String c EmptyString :: chars rest
  end.

(** [str.lower] on one code point below 256: A-Z and the Latin-1 capitals
    (U+00C0..U+00DE except the multiplication sign U+00D7) move up by 32. *)
Definition lower_char (c : ascii) : ascii :=
  let n := N_of_ascii c in
  if ((65 <=? n) && (n <=? 90) ||
      (192 <=? n) && (n <=? 222) && negb (n =? 215))%N
  then ascii_of_N (n + 32) else c.

Fixpoint lower (s : string) : string :=
  match s with
  | EmptyString => EmptyString
  | String c rest => String (lower_char c) (lower rest)
  end.

(** [str(n)] and ["{}".format(n)] for an [int] *)
Definition str_of_int (n : Z) : string :=
  NilZero.string_of_int (Z.to_int n).

(** [\d] on code points below 256 *)
Definition is_digit (c : ascii) : bool :=
  let n := N_of_ascii c in ((48 <=? n) && (n <=? 57))%N.

Definition digit_value (c : ascii) : Z := Z.of_N (N_of_ascii c) - 48.

Fixpoint int_of_digits_from (acc : Z) (s : string) : Z :=
  match s with
  | EmptyString => acc
  | String c rest => int_of_digits_from (10 * acc + digit_value c) rest
  end.

(** [int(s)] for a non-empty string of decimal digits, which is all that a
    [(\d+)] group can hold. *)
Definition int_of_digits (s : string) : Z := int_of_digits_from 0 s.

(** [s.startswith(p)] *)
Fixpoint startswith (p s : string) : bool :=
  match p, s with
  | EmptyString, _ => true
  | String a p', String b s' => if ascii_dec a b then startswith p' s' else false
  | String _ _, EmptyString => false
  end.

(** [sub in s] *)
Fixpoint contains (sub s : string) : bool :=
  startswith sub s ||
  match s with
  | EmptyString => false
  | String _ s' => contains sub s'
  end.

(** [c in s] for a single character *)
Fixpoint has_char (c : ascii) (s : string) : bool :=
  match s with
  | EmptyString => false
  | String b s' => (if ascii_dec c b then true else false) || has_char c s'
  end.

(** The characters [str] gives an [int]: digits, after a minus sign for a
    negative one. *)
Definition int_char (c : ascii) : bool :=
  is_digit c || (if ascii_dec c "-" then true else false).

(** every character of [s] satisfies [P] *)
Fixpoint all_chars (P : ascii -> bool) (s : string) : bool :=
  match s with
  | EmptyString => true
  | String c s' => P c && all_chars P s'
  end.

(** a non-empty string of the digits 0-9 *)
Definition is_digits (s : string) : bool :=
  match s with
  | EmptyString => false
  | String _ _ => all_chars is_digit s
  end.

(** [str(cls)] for a class object, given its qualified name *)
Definition str_of_type (qualname : string) : string :=
  "<class '" ++ qualname ++ "'>".

(** *** The [%] operator on a format string and one [str] argument *)

Inductive format_error : Type :=
  | TypeError (msg : string)
  | ValueError (msg : string).

(** What an expression built on [%] comes to: a value, an exception, or a
    format outside the part of [%] that is modelled here. *)
Inductive outcome (A : Type) : Type :=
  | Returned (a : A)
  | Raised (e : format_error)
  | Unmodelled.
Arguments Returned {A} a.
Arguments Raised {A} e.
Arguments Unmodelled {A}.

Definition emit (s : string) (o : outcome string) : outcome string :=
  match o with
  | Returned t => Returned (s ++ t)
  | Raised e => Raised e
  | Unmodelled => Unmodelled
  end.

(** The characters that carry a conversion specification on after [%]: a
    mapping key, a flag, a width, a precision, a length modifier. *)
Definition is_spec_prefix (c : ascii) : bool := has_char c "(-+ #0123456789*.hlL".

(** The conversion types besides [s] and [%]. *)
Definition is_other_conversion (c : ascii) : bool := has_char c "diouxXeEfFgGcra".

(** [fmt % arg], scanned left to right; [arg] is [Some] while the argument
    has not been taken. Modelled: ordinary characters, [%%], [%s], a [%] at
    the end, and a [%] before a character that is no part of any
    specification. The argument is taken before the conversion type is
    looked at, as CPython does. The message of the unsupported-character
    error is cut before the character and index it goes on to name. *)
Fixpoint percent_format_from (fmt : string) (arg : option string)
  : outcome string :=
  match fmt with
  | EmptyString =>
      match arg with
      | Some _ =>
          Raised (TypeError "not all arguments converted during string formatting")
      | None => Returned ""
      end
  | String c rest =>
      if ascii_dec c "%" then
        match rest with
        | EmptyString => Raised (ValueError "incomplete format")
        | String k rest' =>
            if ascii_dec k "%" then emit "%" (percent_format_from rest' arg)
            else if is_spec_prefix k then Unmodelled
            else
              match arg with
              | None => Raised (TypeError "not enough arguments for format string")
              | Some a =>
                  if ascii_dec k "s" then emit a (percent_format_from rest' None)
                  else if is_other_conversion k then Unmodelled
                  else Raised (ValueError "unsupported format character")
              end
        end
      else emit (String c "") (percent_format_from rest arg)
  end.

Definition percent_format (fmt arg : string) : outcome string :=
  percent_format_from fmt (Some arg).

End py.

(** ** core/context.py *)

Module context.

(** A [cm.Config]: the class it is an instance of (a class object, named by
    its qualified name), its key and its inline password. *)
Record Config : Type := mkConfig {
  type : string;
  key : string;
  password : option string;
}.

Record Context : Type := mkContext {
  config : Config;
  config_key : string;
}.

(** [Context.__init__] *)
Definition Context_init (config : Config) : Context :=
  {| config := config; config_key := key config |}.

Section Collaborators.

(** [pyetltools.config.config] is a collaborator: [cm.get_config] loads a
    Config by key, [cm.get_password] asks the secret store. *)
Variable cm_get_config : string -> result Config.
Variable cm_get_password : string -> result (option string).

(** What a factory constructs. *)
Variable Obj : Type.

(** A context factory type: a class with the classmethod
    [create_from_config]. *)
Record factory : Type := mkFactory {
  factory_name : string;
  create_from_config : Config -> result Obj;
}.

(** [Context.get_password]: a Python function that falls off its end
    returns [None]. *)
Definition get_password (self : Context) : result (option string) :=
  match password (config self) with
  | None => cm_get_password (key (config self))
  | Some _ => Ok None
  end.

Definition get_config (config_key : string) : result Config :=
  cm_get_config config_key.

(** The module-level dict [_context_factory_map], threaded as state. *)
Definition _context_factory_map : gmap string factory := ∅.

Definition get (map : gmap string factory) (config_key : string)
  : result Obj :=
  config ← cm_get_config config_key;
  match map !! type config with
  | None =>
      Raise (Exception ("Context factory for " ++
                        py.str_of_type (type config) ++
                        " not configured."))
  | Some factory => create_from_config factory config
  end.

(** [register_context_factory]; the [logging.info] line leaves the map
    alone. *)
Definition register_context_factory
    (config_type : string) (context_factory_type : factory)
    (map : gmap string factory) : gmap string factory :=
  <[config_type := context_factory_type]> map.

End Collaborators.

Arguments factory_name {Obj} _.
Arguments create_from_config {Obj} _ _.
Arguments mkFactory {Obj} _ _.
Arguments register_context_factory {Obj} _ _ _.

End context.

(** ** tools/misc.py *)

Module misc.

Definition gen_insert (tablename : string) (columns : list string) : string :=
  "insert into " ++ tablename ++ " (" ++
  py.join (String "," (String "010" "")) (map (fun i => "'" ++ i ++ "'") columns) ++
  ") values (" ++
  py.join (String "," (String "010" "")) (map (fun i => "'" ++ i ++ "'") columns) ++
  ")".

End misc.

(** ** data/sqlalchemy/netezza_dialect.py *)

Module netezza_dialect.

Definition nl : string := String "010" "".

(** *** [NetezzaCompiler.limit_clause] *)

(** What [limit_clause] reads of a select: [_limit] and [_offset], each
    [None] or an [int]. *)
Record Select : Type := mkSelect {
  _limit : option Z;
  _offset : option Z;
}.

Definition limit_clause (select : Select) : string :=
  let text := "" in
  let text :=
    match _limit select with
    | Some limit => text ++ " " ++ nl ++ " LIMIT " ++ py.str_of_int limit
    | None => text
    end in
  match _offset select with
  | Some offset =>
      let text :=
        match _limit select with
        | None => text ++ " " ++ nl ++ " LIMIT ALL"
        | Some _ => text
        end in
      text ++ " OFFSET " ++ py.str_of_int offset
  | None => text
  end.

(** *** [DistributeOn] and [NetezzaDDLCompiler.post_create_table] *)

Record DistributeOn : Type := mkDistributeOn {
  column_names : list string;
}.

(** [DistributeOn.__init__], called with the column names *)
Definition DistributeOn_init (column_names : list string) : DistributeOn :=
  {| column_names :=
       match column_names with
       | [] => ["RANDOM"]
       | _ :: _ => column_names
       end |}.

(** A table, as far as [post_create_table] looks at it: the attribute
    [distribute_on], which [DistributeOn._set_parent] sets and which is
    absent otherwise. *)
Record Table : Type := mkTable {
  table_name : string;
  distribute_on : option DistributeOn;
}.

Definition post_create_table (table : Table) : result string :=
  let clause columns := " DISTRIBUTE ON " ++ columns in
  match distribute_on table with
  | Some d =>
      match column_names d with
      | [] => Raise (IndexError "tuple index out of range")
      | first :: _ =>
          if negb (String.eqb (py.lower first) "random") then
            let column_list := py.join "," (column_names d) in
            let columns := "(" ++ column_list ++ ")" in
            Ok (clause columns)
          else Ok (clause "RANDOM")
      end
  | None => Ok (clause "RANDOM")
  end.

(** *** [CreateTableAs] *)

(** The values [distribute_on] is given: a [str], or a tuple or a list of
    column names. *)
Inductive pyvalue : Type :=
  | PyStr (s : string)
  | PyTuple (items : list string)
  | PyList (items : list string).

Record CreateTableAs : Type := mkCreateTableAs {
  selectable : string;
  temporary : bool;
  new_table_name : string;
  cta_distribute_on : pyvalue;
}.

(** [CreateTableAs.__init__]; [distribute_on] defaults to ['random']. *)
Definition CreateTableAs_init (new_table_name selectable : string)
    (temporary : bool) (distribute_on : pyvalue) : CreateTableAs :=
  {| selectable := selectable; temporary := temporary;
     new_table_name := new_table_name; cta_distribute_on := distribute_on |}.

(** [self.distribute_on.lower()]: only a [str] has the method. *)
Definition pyvalue_lower (v : pyvalue) : result string :=
  match v with
  | PyStr s => Ok (py.lower s)
  | PyTuple _ => Raise (AttributeError "'tuple' object has no attribute 'lower'")
  | PyList _ => Raise (AttributeError "'list' object has no attribute 'lower'")
  end.

(** [','.join(self.distribute_on)]: a [str] is iterated by character. *)
Definition pyvalue_iter (v : pyvalue) : list string :=
  match v with
  | PyStr s => py.chars s
  | PyTuple items | PyList items => items
  end.

Definition distribute_clause (self : CreateTableAs) : result string :=
  lowered ← pyvalue_lower (cta_distribute_on self);
  if negb (String.eqb lowered "random") then
    let column_list := py.join "," (pyvalue_iter (cta_distribute_on self)) in
    Ok ("(" ++ column_list ++ ")")
  else Ok "RANDOM".

(** [visit_create_table_as]; [selectable] stands for the text that
    [compiler.sql_compiler.process] returns for it. *)
Definition visit_create_table_as (element : CreateTableAs) : result string :=
  let tmp := if temporary element then "TEMP" else "" in
  distribute ← distribute_clause element;
  Ok (nl ++ "        CREATE " ++ tmp ++ " TABLE " ++ new_table_name element ++
      " AS (" ++ nl ++ "        " ++ selectable element ++ nl ++
      "        ) DISTRIBUTE ON " ++ distribute ++ nl ++ "    ").

(** [visit_create_index]: Netezza has no indexes. *)
Definition visit_create_index : string := "--".

(** *** [oid_datatype_map] and [get_columns] *)

(** The column type classes the map names. *)
Inductive coltype_class : Type :=
  | Boolean | CHAR | NAME | BigInteger | SmallInteger | Integer
  | sqltypes_TEXT | OID | REAL | DOUBLE_PRECISION | ABSTIME
  | sqltypes_String | Date | TIME | TIMESTAMP | INTERVAL | Numeric
  | BYTEINT | NCHAR | sqltypes_NVARCHAR | ST_GEOMETRY | VARBINARY.

#[global] Instance coltype_class_eq_dec : EqDecision coltype_class.
Proof. solve_decision. Defined.

(** Maps type ids to sqlalchemy types, plus whether they have variable
    precision. *)
Definition oid_datatype_map : gmap Z (coltype_class * bool) :=
  list_to_map [
    (16, (Boolean, false));
    (18, (CHAR, false));
    (19, (NAME, false));
    (20, (BigInteger, false));
    (21, (SmallInteger, false));
    (23, (Integer, false));
    (25, (sqltypes_TEXT, false));
    (26, (OID, false));
    (700, (REAL, false));
    (701, (DOUBLE_PRECISION, false));
    (702, (ABSTIME, false));
    (1042, (CHAR, true));
    (1043, (sqltypes_String, true));
    (1082, (Date, false));
    (1083, (TIME, false));
    (1184, (TIMESTAMP, false));
    (1186, (INTERVAL, false));
    (1266, (TIMESTAMP, false));
    (1700, (Numeric, false));
    (2500, (BYTEINT, false));
    (2522, (NCHAR, true));
    (2530, (sqltypes_NVARCHAR, true));
    (2552, (ST_GEOMETRY, true));
    (2568, (VARBINARY, true))
  ].

(** A type object: the class and the positional arguments it was
    constructed with ([None] is a NULL length). *)
Record coltype : Type := mkColtype {
  coltype_cls : coltype_class;
  coltype_args : list (option Z);
}.

(** A row of the column query: name, typeid, nullable, length,
    format_type. *)
Record row : Type := mkRow {
  name : string;
  typeid : Z;
  nullable : bool;
  length : option Z;
  format_type : string;
}.

(** A column descriptor: the dict with keys ['name'], ['type'] and
    ['nullable']. *)
Record column : Type := mkColumn {
  column_name : string;
  column_type : coltype;
  column_nullable : bool;
}.

(** [re.match(r'numeric\((\d+),(\d+)\)', s)], piece by piece. *)

(** a literal at the current position; the rest of the subject *)
Fixpoint literal (p s : string) : option string :=
  match p, s with
  | EmptyString, _ => Some s
  | String a p', String b s' => if ascii_dec a b then literal p' s' else None
  | String _ _, EmptyString => None
  end.

(** the longest run of digits at the current position; the rest *)
Fixpoint span_digits (s : string) : string * string :=
  match s with
  | EmptyString => (EmptyString, EmptyString)
  | String c s' =>
      if py.is_digit c
      then let '(d, rest) := span_digits s' in (String c d, rest)
      else (EmptyString, s)
  end.

(** [(\d+)]: greedy, and what follows it in the pattern is never a digit,
    so giving characters back cannot help a match. *)
Definition digits1 (s : string) : option (string * string) :=
  match span_digits s with
  | (EmptyString, _) => None
  | (d, rest) => Some (d, rest)
  end.

(** The groups of the match, or [None] when there is no match at the start
    of [s]. *)
Definition re_match_numeric (s : string) : option (string * string) :=
  rest ← literal "numeric(" s;
  '(precision, rest) ← digits1 rest;
  rest ← literal "," rest;
  '(scale, rest) ← digits1 rest;
  _ ← literal ")" rest;
  Some (precision, scale).

(** The body of the loop over [rows]. *)
Definition column_of_row (r : row) : result column :=
  '(coltype_class, has_length) ←
    match oid_datatype_map !! typeid r with
    | Some entry => Ok entry
    | None => Raise (KeyError (typeid r))
    end;
  coltype ←
    (if decide (coltype_class = Numeric) then
       match re_match_numeric (py.lower (format_type r)) with
       | None =>
           Raise (AttributeError "'NoneType' object has no attribute 'groups'")
       | Some (precision, scale) =>
           Ok (mkColtype coltype_class
                 [Some (py.int_of_digits precision);
                  Some (py.int_of_digits scale)])
       end
     else if (has_length : bool) then
       Ok (mkColtype coltype_class [length r])
     else
       Ok (mkColtype coltype_class []));
  Ok {| column_name := name r;
        column_type := coltype;
        column_nullable := nullable r |}.

Fixpoint get_columns_loop (rows : list row) (columns : list column)
  : result (list column) :=
  match rows with
  | [] => Ok columns
  | r :: rows' =>
      c ← column_of_row r;
      get_columns_loop rows' (columns ++ [c])
  end.

(** [get_columns], from [rows = c.fetchall()] on: the rows are the
    database's answer to the column query for the table and schema. *)
Definition get_columns (rows : list row) : result (list column) :=
  get_columns_loop rows [].

(** *** [has_table] and [get_table_oid] *)

(** A row of the system view [_v_object_data]. *)
Record object_data : Type := mkObjectData {
  objname : string;
  dbname : string;
  od_schema : string;
}.

(** A row of the system view [_V_TABLE]: its first column, which is what
    [scalar()] reads and which may be NULL, and the two columns the query
    filters on. *)
Record v_table : Type := mkVTable {
  first_column : option Z;
  tablename : string;
  schema : string;
}.

(** A connection: the database it is connected to
    ([getinfo(pyodbc.SQL_DATABASE_NAME)]) and the contents of the two
    views. *)
Record Connection : Type := mkConnection {
  database_name : string;
  _v_object_data : list object_data;
  _V_TABLE : list v_table;
}.

(** [select count( * ) from _v_object_data where objname = ? and dbname = ?] *)
Definition has_table_query (connection : Connection)
    (objname_param dbname_param : string) : Z :=
  Z.of_nat (List.length
    (List.filter (fun o => String.eqb (objname o) objname_param &&
                           String.eqb (dbname o) dbname_param)
                 (_v_object_data connection))).

Definition has_table (connection : Connection) (tablename : string)
    (schema : option string) : bool :=
  let dbname := database_name connection in
  let result := has_table_query connection tablename dbname in
  negb (result =? 0).

(** [SELECT * FROM _V_TABLE WHERE (%s) AND tablename = :table_name], with
    [schema = :schema] or [1=1] in place of [%s]. *)
Definition table_oid_query (connection : Connection)
    (schema_param : option string) (table_name_param : string)
  : list v_table :=
  List.filter (fun t =>
                 match schema_param with
                 | Some s => String.eqb (schema t) s
                 | None => true
                 end && String.eqb (tablename t) table_name_param)
              (_V_TABLE connection).

(** [c.scalar()]: the first column of the first row, [None] without a
    row. *)
Definition scalar (rows : list v_table) : option Z :=
  match rows with
  | [] => None
  | t :: _ => first_column t
  end.

Definition get_table_oid (connection : Connection) (table_name : string)
    (schema : option string) : result Z :=
  let c := table_oid_query connection schema table_name in
  match scalar c with
  | None => Raise (NoSuchTableError table_name)
  | Some table_oid => Ok table_oid
  end.

(** *** [get_table_names] and [get_view_names] *)

(** [x like '_t_%']: any character, a [t], any character, then anything. *)
Definition like__t_ (x : string) : bool :=
  match x with
  | String _ (String c (String _ _)) => if ascii_dec c "t" then true else false
  | _ => false
  end.

(** [get_table_names]: the query
    [select tablename as name from _v_table where schema=:schema and
     tablename not like '_t_%'] over the view, and the first column of its
    rows. [default_schema_name] is the attribute of the dialect that stands
    in for a missing [schema]. *)
Definition get_table_names (default_schema_name : string)
    (connection : Connection) (schema_arg : option string) : list string :=
  let schema_param :=
    match schema_arg with
    | Some s => s
    | None => default_schema_name
    end in
  let result :=
    List.filter (fun t => String.eqb (schema t) schema_param &&
                          negb (like__t_ (tablename t)))
                (_V_TABLE connection) in
  map tablename result.

(** The format string of [get_view_names]: two adjacent literals. *)
Definition view_names_format : string :=
  "select viewname as name from _v_view" ++
  "where (%s) and viewname not like '_v_%'".

(** [get_view_names]; [execute] stands for [connection.execute] followed by
    the first column of each row. *)
Definition get_view_names (execute : string -> list string)
    (schema_arg : option string) : py.outcome (list string) :=
  let schema_where_clause :=
    match schema_arg with
    | Some _ => "schema = :schema"
    | None => "1=1"
    end in
  match py.percent_format view_names_format schema_where_clause with
  | py.Returned query => py.Returned (execute query)
  | py.Raised e => py.Raised e
  | py.Unmodelled => py.Unmodelled
  end.

End netezza_dialect.

(** ** Vocabulary of the properties *)

(** A bound parameter is rendered as a marker of the parameter style: [?]
    (qmark, the dialect's default), [:name] or [%(name)s]. A text without
    these characters holds no bound parameter. *)
Definition no_bind_parameters (text : string) : bool :=
  negb (py.has_char "?" text) && negb (py.has_char ":" text) &&
  negb (py.has_char "%" text).

(** The column list the specification describes for [gen_insert]: every
    column name between single quotes, the items separated by a comma and a
    newline. *)
Fixpoint quoted_column_list (columns : list string) : string :=
  match columns with
  | [] => ""
  | [c] => "'" ++ c ++ "'"
  | c :: rest => "'" ++ c ++ "'" ++ "," ++ netezza_dialect.nl ++ quoted_column_list rest
  end.

(** A [format_type] of the form numeric(p,s), whatever the case of its
    letters: [p] and [s] are its two runs of digits. *)
Definition numeric_form (format_type p s : string) : Prop :=
  py.is_digits p = true /\ py.is_digits s = true /\
  exists rest,
    py.lower format_type = "numeric(" ++ p ++ "," ++ s ++ ")" ++ rest.

(** A row the static map covers. *)
Definition covered (r : netezza_dialect.row) : Prop :=
  is_Some (netezza_dialect.oid_datatype_map !! netezza_dialect.typeid r) /\
  (netezza_dialect.typeid r = 1700 ->
   exists p s, numeric_form (netezza_dialect.format_type r) p s).

(** The descriptor the specification gives a covered row. *)
Inductive described_by (r : netezza_dialect.row) : netezza_dialect.column -> Prop :=
  | described_numeric p s :
      netezza_dialect.typeid r = 1700 ->
      numeric_form (netezza_dialect.format_type r) p s ->
      described_by r
        (netezza_dialect.mkColumn (netezza_dialect.name r)
           (netezza_dialect.mkColtype netezza_dialect.Numeric
              [Some (py.int_of_digits p); Some (py.int_of_digits s)])
           (netezza_dialect.nullable r))
  | described_with_length cls :
      netezza_dialect.oid_datatype_map !! netezza_dialect.typeid r = Some (cls, true) ->
      described_by r
        (netezza_dialect.mkColumn (netezza_dialect.name r)
           (netezza_dialect.mkColtype cls [netezza_dialect.length r])
           (netezza_dialect.nullable r))
  | described_plain cls :
      netezza_dialect.oid_datatype_map !! netezza_dialect.typeid r = Some (cls, false) ->
      netezza_dialect.typeid r <> 1700 ->
      described_by r
        (netezza_dialect.mkColumn (netezza_dialect.name r)
           (netezza_dialect.mkColtype cls [])
           (netezza_dialect.nullable r)).

(** [has_table] scoped by schema: it answers yes only when the view lists
    the table under the schema asked for. *)
Definition has_table_scoped_by_schema : Prop :=
  forall connection tablename schema,
    netezza_dialect.has_table connection tablename (Some schema) = true ->
    Exists (fun o => netezza_dialect.objname o = tablename /\
                     netezza_dialect.dbname o = netezza_dialect.database_name connection /\
                     netezza_dialect.od_schema o = schema)
           (netezza_dialect._v_object_data connection).

(** A run of [register_context_factory] calls, oldest first. *)
Definition register_all {Obj : Type} (calls : list (string * context.factory Obj))
    (map : gmap string (context.factory Obj)) : gmap string (context.factory Obj) :=
  foldl (fun m call => context.register_context_factory call.1 call.2 m) map calls.

(** The factory that a run of calls leaves registered for [T]: that of the
    last call for [T], if there is one. *)
Fixpoint last_registered {Obj : Type} (T : string)
    (calls : list (string * context.factory Obj))
  : option (context.factory Obj) :=
  match calls with
  | [] => None
  | (T', F) :: calls' =>
      match last_registered T calls' with
      | Some G => Some G
      | None => if String.eqb T' T then Some F else None
      end
  end.

(** What [limit_clause] writes after its first [LIMIT] and the space that
    follows it. *)
Definition limit_clause_tail (sel : netezza_dialect.Select) : string :=
  match netezza_dialect._limit sel, netezza_dialect._offset sel with
  | Some l, Some o => py.str_of_int l ++ String " " ("OFFSET " ++ py.str_of_int o)
  | None, Some o => "ALL" ++ String " " ("OFFSET " ++ py.str_of_int o)
  | Some l, None => py.str_of_int l
  | None, None => ""
  end.

(** ** Sample collaborators and inputs *)

Module sample.

Import context netezza_dialect.

(** a config store with one class of Config, and an inline password under
    the key [inline] only *)
Definition get_config (config_key : string) : result Config :=
  Ok (mkConfig "pyetltools.data.config.DBConfig" config_key
        (if String.eqb config_key "inline" then Some "s3cret" else None)).

Definition get_password (config_key : string) : result (option string) :=
  Ok (Some ("vault:" ++ config_key)).

Definition db_factory : factory Context :=
  mkFactory "DBContext" (fun c => Ok (Context_init c)).

(** the answer of the column query for a table of three columns *)
Definition rows : list row :=
  [ mkRow "ID" 20 false (Some 8) "BIGINT";
    mkRow "AMOUNT" 1700 true (Some 19) "NUMERIC(10,2)";
    mkRow "LABEL" 1043 true (Some 50) "CHARACTER VARYING(50)" ].

(** a row of a type id the map does not have *)
Definition unknown_row : row := mkRow "BLOB" 9999 true None "UNKNOWN".

(** a numeric row whose [format_type] the pattern does not match *)
Definition odd_numeric_row : row := mkRow "N" 1700 true None "DECIMAL".

(** database [SALES] with the table [ORDERS] in schema [ADMIN], and a
    table of the same name in database [HR] *)
Definition connection : Connection :=
  {| database_name := "SALES";
     _v_object_data :=
       [ mkObjectData "ORDERS" "SALES" "ADMIN";
         mkObjectData "ORDERS" "HR" "DBO" ];
     _V_TABLE :=
       [ mkVTable (Some 200123) "ORDERS" "ADMIN";
         mkVTable (Some 200456) "CUSTOMERS" "DBO" ] |}.

End sample.

(** * Properties *)

(** ** Strings *)

Section StringFacts.

Lemma append_cons (x : ascii) (a b : string) :
  String x a ++ b = String x (a ++ b).
Proof. reflexivity. Qed.

Lemma append_empty_l (b : string) : "" ++ b = b.
Proof. reflexivity. Qed.

Lemma append_assoc (a b c : string) : (a ++ b) ++ c = a ++ b ++ c.
Proof.
  induction a as [|x a IH]; [reflexivity |].
  rewrite !append_cons. by rewrite IH.
Qed.

Lemma append_empty_r (a : string) : a ++ "" = a.
Proof.
  induction a as [|x a IH]; [reflexivity |].
  rewrite append_cons. by rewrite IH.
Qed.

Lemma startswith_append (p s : string) : py.startswith p (p ++ s) = true.
Proof.
  induction p as [|a p IH]; [reflexivity |].
  rewrite append_cons. simpl.
  destruct (ascii_dec a a); [exact IH | congruence].
Qed.

Lemma contains_skip (sub pre s : string) :
  py.contains sub s = true -> py.contains sub (pre ++ s) = true.
Proof.
  intros H. induction pre as [|a pre IH]; [exact H |].
  rewrite append_cons. simpl. rewrite IH. apply orb_true_r.
Qed.

Lemma contains_here (sub post : string) : py.contains sub (sub ++ post) = true.
Proof.
  destruct (sub ++ post) as [|b s] eqn:E; simpl.
  - destruct sub; [reflexivity | discriminate E].
  - rewrite <- E, startswith_append. reflexivity.
Qed.

Lemma contains_append (sub pre post : string) :
  py.contains sub (pre ++ sub ++ post) = true.
Proof. apply contains_skip, contains_here. Qed.

Lemma contains_intro (sub pre post s : string) :
  s = pre ++ sub ++ post -> py.contains sub s = true.
Proof. intros ->. apply contains_append. Qed.

Lemma has_char_append (c : ascii) (a b : string) :
  py.has_char c (a ++ b) = py.has_char c a || py.has_char c b.
Proof.
  induction a as [|x a IH]; [reflexivity |].
  rewrite append_cons. simpl. rewrite IH. by rewrite orb_assoc.
Qed.

Lemma has_char_all_chars (P : ascii -> bool) (c : ascii) (s : string) :
  py.all_chars P s = true -> P c = false -> py.has_char c s = false.
Proof.
  intros Hall Hc. induction s as [|x s IH]; simpl in *; [reflexivity |].
  apply andb_true_iff in Hall as [Hx Hs].
  destruct (ascii_dec c x) as [->|_]; [congruence |].
  simpl. by apply IH.
Qed.

Lemma string_of_uint_chars (d : Decimal.uint) :
  py.all_chars py.int_char (NilEmpty.string_of_uint d) = true.
Proof. induction d; simpl; auto. Qed.

Lemma str_of_int_chars (n : Z) :
  py.all_chars py.int_char (py.str_of_int n) = true.
Proof.
  unfold py.str_of_int, NilZero.string_of_int, NilZero.string_of_uint.
  destruct (Z.to_int n) as [d|d]; destruct d; simpl;
    try reflexivity; apply string_of_uint_chars.
Qed.

Lemma str_of_int_no_bind_parameters (n : Z) :
  py.has_char "?" (py.str_of_int n) = false /\
  py.has_char ":" (py.str_of_int n) = false /\
  py.has_char "%" (py.str_of_int n) = false.
Proof.
  repeat split;
    apply (has_char_all_chars py.int_char); auto using str_of_int_chars.
Qed.

End StringFacts.

(** ** [NetezzaCompiler.limit_clause] *)

Section LimitClause.

Import netezza_dialect.

Lemma limit_clause_both (limit offset : Z) :
  limit_clause (mkSelect (Some limit) (Some offset)) =
  " " ++ nl ++ " LIMIT " ++ py.str_of_int limit ++
  " OFFSET " ++ py.str_of_int offset.
Proof. unfold limit_clause; simpl. by rewrite append_empty_l, !append_assoc. Qed.

Lemma limit_clause_offset_only (offset : Z) :
  limit_clause (mkSelect None (Some offset)) =
  " " ++ nl ++ " LIMIT ALL" ++ " OFFSET " ++ py.str_of_int offset.
Proof. unfold limit_clause; simpl. by rewrite append_empty_l, !append_assoc. Qed.

Lemma limit_clause_limit_only (limit : Z) :
  limit_clause (mkSelect (Some limit) None) =
  " " ++ nl ++ " LIMIT " ++ py.str_of_int limit.
Proof. reflexivity. Qed.

Lemma limit_clause_neither : limit_clause (mkSelect None None) = "".
Proof. reflexivity. Qed.

Lemma limit_clause_no_bind_parameters (sel : Select) :
  no_bind_parameters (limit_clause sel) = true.
Proof.
  destruct sel as [[limit|] [offset|]];
    rewrite ?limit_clause_both, ?limit_clause_offset_only,
      ?limit_clause_limit_only, ?limit_clause_neither;
    unfold no_bind_parameters; rewrite ?has_char_append;
    repeat match goal with
      | |- context [py.str_of_int ?n] =>
          destruct (str_of_int_no_bind_parameters n) as (-> & -> & ->)
      end;
    reflexivity.
Qed.

(** C6: with limit 10 and offset 5 the clause contains the literals
    [LIMIT 10] and [OFFSET 5]; for every pair of integers the two values
    are written into the text in decimal, and the text holds no marker of
    a bound parameter. *)
Theorem C6_limit_offset_inlined :
  (py.contains "LIMIT 10" (limit_clause (mkSelect (Some 10) (Some 5))) = true /\
   py.contains "OFFSET 5" (limit_clause (mkSelect (Some 10) (Some 5))) = true) /\
  forall limit offset : Z,
    let text := limit_clause (mkSelect (Some limit) (Some offset)) in
    text = " " ++ nl ++ " LIMIT " ++ py.str_of_int limit ++
           " OFFSET " ++ py.str_of_int offset /\
    py.contains ("LIMIT " ++ py.str_of_int limit) text = true /\
    py.contains ("OFFSET " ++ py.str_of_int offset) text = true /\
    no_bind_parameters text = true.
Proof.
  split; [split; reflexivity |].
  intros limit offset text. subst text.
  split; [apply limit_clause_both |].
  split; [| split; [| apply limit_clause_no_bind_parameters]];
    rewrite limit_clause_both.
  - apply (contains_intro _ (" " ++ nl ++ " ")
             (" OFFSET " ++ py.str_of_int offset)).
    by rewrite !append_assoc.
  - apply (contains_intro _
             (" " ++ nl ++ " LIMIT " ++ py.str_of_int limit ++ " ") "").
    by rewrite !append_assoc, append_empty_r.
Qed.

(** C10: a select with an offset and no limit gets [LIMIT ALL] right before
    its [OFFSET]; whatever the limit, the text of a select with an offset
    is a [LIMIT] clause followed by the [OFFSET] clause. *)
Theorem C10_offset_preceded_by_limit :
  (forall offset : Z,
     limit_clause (mkSelect None (Some offset)) =
     " " ++ nl ++ " LIMIT ALL" ++ " OFFSET " ++ py.str_of_int offset) /\
  (forall (limit : option Z) (offset : Z),
     exists bound,
       bound = match limit with Some l => py.str_of_int l | None => "ALL" end /\
       limit_clause (mkSelect limit (Some offset)) =
       " " ++ nl ++ " LIMIT " ++ bound ++ " OFFSET " ++ py.str_of_int offset).
Proof.
  split; [exact limit_clause_offset_only |].
  intros [l|] offset; eexists; (split; [reflexivity |]).
  - apply limit_clause_both.
  - apply limit_clause_offset_only.
Qed.

End LimitClause.

(** ** [gen_insert] *)

Section GenInsert.

Import misc.

Lemma join_cons (sep a b : string) (l : list string) :
  py.join sep (a :: b :: l) = a ++ sep ++ py.join sep (b :: l).
Proof. reflexivity. Qed.

Lemma join_quoted (columns : list string) :
  py.join ("," ++ netezza_dialect.nl) (map (fun i => "'" ++ i ++ "'") columns) =
  quoted_column_list columns.
Proof.
  induction columns as [|c [|c' rest] IH]; [reflexivity | reflexivity |].
  change (quoted_column_list (c :: c' :: rest)) with
    ("'" ++ c ++ "'" ++ "," ++ netezza_dialect.nl ++
     quoted_column_list (c' :: rest)).
  rewrite <- IH.
  change (map (fun i => "'" ++ i ++ "'") (c :: c' :: rest)) with
    (("'" ++ c ++ "'") :: ("'" ++ c' ++ "'") ::
     map (fun i => "'" ++ i ++ "'") rest).
  rewrite join_cons. by rewrite !append_assoc.
Qed.

Lemma has_char_quoted_column_list (c : ascii) (columns : list string) :
  py.has_char c ("'" ++ "," ++ netezza_dialect.nl) = false ->
  Forall (fun col => py.has_char c col = false) columns ->
  py.has_char c (quoted_column_list columns) = false.
Proof.
  intros Hc Hall. induction Hall as [|col rest Hcol Hrest IH]; [reflexivity |].
  destruct rest as [|col' rest].
  - change (quoted_column_list [col]) with ("'" ++ col ++ "'").
    rewrite !has_char_append, Hcol.
    rewrite !has_char_append in Hc. apply orb_false_iff in Hc as [-> _].
    reflexivity.
  - change (quoted_column_list (col :: col' :: rest)) with
      ("'" ++ col ++ "'" ++ "," ++ netezza_dialect.nl ++
       quoted_column_list (col' :: rest)).
    rewrite !has_char_append, Hcol, IH.
    rewrite !has_char_append in Hc.
    apply orb_false_iff in Hc as [-> Hc].
    apply orb_false_iff in Hc as [-> ->]. reflexivity.
Qed.

(** C7: [gen_insert("t", ["a","b"])] contains [insert into t ('a',\n'b')];
    for every table name and column list the statement is the table name
    followed by the quoted column names, joined by a comma and a newline,
    once as the column list and once more as the values list; no marker of
    a bind parameter appears that the names themselves do not bring. *)
Theorem C7_gen_insert_quotes_columns :
  (gen_insert "t" ["a"; "b"] =
     "insert into t ('a'," ++ netezza_dialect.nl ++ "'b') values ('a'," ++
     netezza_dialect.nl ++ "'b')" /\
   py.contains ("insert into t ('a'," ++ netezza_dialect.nl ++ "'b')")
     (gen_insert "t" ["a"; "b"]) = true) /\
  (forall tablename columns,
     gen_insert tablename columns =
     "insert into " ++ tablename ++ " (" ++ quoted_column_list columns ++
     ") values (" ++ quoted_column_list columns ++ ")") /\
  (forall tablename columns,
     py.has_char "?" tablename = false ->
     Forall (fun col => py.has_char "?" col = false) columns ->
     py.has_char "?" (gen_insert tablename columns) = false).
Proof.
  split; [split; reflexivity |].
  assert (Hshape : forall tablename columns,
     gen_insert tablename columns =
     "insert into " ++ tablename ++ " (" ++ quoted_column_list columns ++
     ") values (" ++ quoted_column_list columns ++ ")").
  { intros tablename columns. unfold gen_insert.
    change (String "," (String "010" "")) with ("," ++ netezza_dialect.nl).
    by rewrite join_quoted. }
  split; [exact Hshape |].
  intros tablename columns Ht Hcols. rewrite Hshape.
  rewrite !has_char_append, Ht.
  rewrite (has_char_quoted_column_list "?" columns); [reflexivity | reflexivity | exact Hcols].
Qed.

Lemma C7_gen_insert_witness :
  py.has_char "?" (gen_insert "t" ["a"; "b"]) = false.
Proof.
  apply (proj2 (proj2 C7_gen_insert_quotes_columns) "t" ["a"; "b"]).
  - reflexivity.
  - repeat constructor.
Defined.

End GenInsert.

(** ** The context registry and credential retrieval *)

Section Registry.

Import context.

Variable cm_get_config : string -> result Config.
Variable cm_get_password : string -> result (option string).
Variable Obj : Type.

Lemma register_all_other (calls : list (string * factory Obj))
    (map : gmap string (factory Obj)) (T : string) :
  Forall (fun call => call.1 <> T) calls ->
  register_all calls map !! T = map !! T.
Proof.
  intros Hcalls. revert map.
  induction Hcalls as [|[T' F'] calls Hne _ IH]; intros map; [reflexivity |].
  simpl. rewrite IH. unfold register_context_factory.
  by apply lookup_insert_ne.
Qed.

Lemma get_registered (map : gmap string (factory Obj)) (F : factory Obj)
    (config_key : string) (config : Config) :
  cm_get_config config_key = Ok config ->
  map !! type config = Some F ->
  get cm_get_config Obj map config_key = create_from_config F config.
Proof. intros Hload Hmap. unfold get. rewrite Hload. simpl. by rewrite Hmap. Qed.

Lemma get_unregistered (map : gmap string (factory Obj))
    (config_key : string) (config : Config) :
  cm_get_config config_key = Ok config ->
  map !! type config = None ->
  get cm_get_config Obj map config_key =
  Raise (Exception ("Context factory for <class '" ++ type config ++
                    "'> not configured.")).
Proof.
  intros Hload Hmap. unfold get. rewrite Hload. simpl. rewrite Hmap.
  unfold py.str_of_type. by rewrite !append_assoc.
Qed.

(** C1: once factory [F] is registered for config type [T], and whatever is
    registered for other types afterwards, [get] of a key whose Config has
    type [T] returns what [F.create_from_config] returns for that Config;
    [get] of a key whose Config has a type without a factory raises the
    exception whose message names that type. *)
Theorem C1_registry_lookup
    (map : gmap string (factory Obj)) (config_key : string) (config : Config) :
  cm_get_config config_key = Ok config ->
  (forall (T : string) (F : factory Obj) (later : list (string * factory Obj)),
     type config = T ->
     Forall (fun call => call.1 <> T) later ->
     get cm_get_config Obj
       (register_all later (register_context_factory T F map)) config_key =
     create_from_config F config) /\
  (map !! type config = None ->
   exists msg,
     get cm_get_config Obj map config_key = Raise (Exception msg) /\
     msg = "Context factory for <class '" ++ type config ++
           "'> not configured." /\
     py.contains (type config) msg = true).
Proof.
  intros Hload. split.
  - intros T F later HT Hlater.
    apply get_registered; [exact Hload |].
    rewrite HT, register_all_other by exact Hlater.
    apply lookup_insert_eq.
  - intros Hmap. eexists. split; [by apply get_unregistered |].
    split; [reflexivity |].
    by apply (contains_intro _ "Context factory for <class '"
                "'> not configured.").
Qed.

(** C8: when the Config of a Context has no inline password,
    [get_password] returns what the secret store returns for the key of
    that Config, which is the [config_key] of a Context built from it. *)
Theorem C8_password_from_secret_store (self : Context) :
  password (config self) = None ->
  get_password cm_get_password self = cm_get_password (key (config self)) /\
  (forall c, self = Context_init c ->
     get_password cm_get_password self = cm_get_password (config_key self)).
Proof.
  intros Hnone. unfold get_password. rewrite Hnone.
  split; [reflexivity |]. by intros c ->.
Qed.

(** C9: when the Config of a Context has an inline password,
    [get_password] returns [None]: the secret store is not asked and the
    inline password is not returned. *)
Theorem C9_inline_password_not_returned (self : Context) (inline : string) :
  password (config self) = Some inline ->
  get_password cm_get_password self = Ok None /\
  get_password cm_get_password self <> Ok (Some inline).
Proof.
  intros Hsome. unfold get_password. rewrite Hsome. by split.
Qed.

End Registry.

Section RegistryWitnesses.

Import context.

Lemma C1_registry_lookup_witness :
  get sample.get_config Context
    (register_all [("JiraConfig", sample.db_factory)]
       (register_context_factory "pyetltools.data.config.DBConfig"
          sample.db_factory ∅)) "DEV" =
  Ok (Context_init (mkConfig "pyetltools.data.config.DBConfig" "DEV" None)).
Proof.
  apply (proj1 (C1_registry_lookup sample.get_config Context ∅ "DEV"
                  (mkConfig "pyetltools.data.config.DBConfig" "DEV" None)
                  eq_refl)
           "pyetltools.data.config.DBConfig" sample.db_factory
           [("JiraConfig", sample.db_factory)] eq_refl).
  repeat constructor. simpl. discriminate.
Defined.

Lemma C8_password_from_secret_store_witness :
  get_password sample.get_password
    (Context_init (mkConfig "DBConfig" "DEV" None)) =
  Ok (Some "vault:DEV").
Proof.
  apply (proj1 (C8_password_from_secret_store sample.get_password
                  (Context_init (mkConfig "DBConfig" "DEV" None)) eq_refl)).
Defined.

Lemma C9_inline_password_not_returned_witness :
  get_password sample.get_password
    (Context_init (mkConfig "DBConfig" "inline" (Some "s3cret"))) = Ok None.
Proof.
  apply (proj1 (C9_inline_password_not_returned sample.get_password
                  (Context_init (mkConfig "DBConfig" "inline" (Some "s3cret")))
                  "s3cret" eq_refl)).
Defined.

End RegistryWitnesses.

(** ** Column reflection *)

Section Columns.

Import netezza_dialect.

(** *** The pattern [numeric\((\d+),(\d+)\)] *)

Lemma literal_append (p s : string) : literal p (p ++ s) = Some s.
Proof.
  induction p as [|a p IH]; [reflexivity |].
  rewrite append_cons. simpl.
  destruct (ascii_dec a a); [exact IH | congruence].
Qed.

Lemma span_digits_append (d : string) (c : ascii) (rest : string) :
  py.all_chars py.is_digit d = true ->
  py.is_digit c = false ->
  span_digits (d ++ String c rest) = (d, String c rest).
Proof.
  intros Hd Hc. induction d as [|x d IH].
  - rewrite append_empty_l. simpl. by rewrite Hc.
  - simpl in Hd. apply andb_true_iff in Hd as [Hx Hd].
    rewrite append_cons. simpl. rewrite Hx, (IH Hd). reflexivity.
Qed.

Lemma digits1_append (d : string) (c : ascii) (rest : string) :
  py.is_digits d = true ->
  py.is_digit c = false ->
  digits1 (d ++ String c rest) = Some (d, String c rest).
Proof.
  intros Hd Hc. unfold digits1.
  destruct d as [|x d]; [discriminate Hd |].
  by rewrite span_digits_append.
Qed.

Lemma re_match_numeric_form (p s rest : string) :
  py.is_digits p = true ->
  py.is_digits s = true ->
  re_match_numeric ("numeric(" ++ p ++ "," ++ s ++ ")" ++ rest) = Some (p, s).
Proof.
  intros Hp Hs. unfold re_match_numeric.
  rewrite literal_append. simpl.
  change ("," ++ s ++ ")" ++ rest) with (String "," (s ++ ")" ++ rest)).
  rewrite digits1_append by done. simpl.
  destruct (ascii_dec "," ","); [| congruence].
  change (")" ++ rest) with (String ")" rest).
  rewrite digits1_append by done. simpl.
  destruct (ascii_dec ")" ")"); [reflexivity | congruence].
Qed.

(** *** The static map *)

Lemma oid_datatype_map_numeric (id : Z) (cls : coltype_class) (has_length : bool) :
  oid_datatype_map !! id = Some (cls, has_length) ->
  (cls = Numeric <-> id = 1700) /\ (id = 1700 -> has_length = false).
Proof.
  intros H. unfold oid_datatype_map in H.
  apply elem_of_list_to_map_2 in H.
  repeat (apply elem_of_cons in H as [H|H];
          [injection H as -> -> ->; repeat split; intros; congruence |]).
  by apply elem_of_nil in H.
Qed.

(** *** The loop body *)

Lemma column_of_row_unmapped (r : row) :
  oid_datatype_map !! typeid r = None ->
  column_of_row r = Raise (KeyError (typeid r)).
Proof. intros H. unfold column_of_row. by rewrite H. Qed.

Lemma column_of_row_no_KeyError (r : row) (k : Z) :
  is_Some (oid_datatype_map !! typeid r) ->
  column_of_row r <> Raise (KeyError k).
Proof.
  intros [[cls hl] H]. unfold column_of_row. rewrite H. simpl.
  destruct (decide (cls = Numeric)).
  - destruct (re_match_numeric _) as [[p s]|]; simpl; discriminate.
  - destruct hl; simpl; discriminate.
Qed.

Lemma column_of_row_covered (r : row) :
  covered r -> exists c, column_of_row r = Ok c /\ described_by r c.
Proof.
  intros [[[cls hl] Hmap] Hform].
  destruct (oid_datatype_map_numeric _ _ _ Hmap) as [Hnum Hflag].
  unfold column_of_row. rewrite Hmap. simpl.
  destruct (decide (cls = Numeric)) as [->|Hcls].
  - assert (Hid : typeid r = 1700) by by apply Hnum.
    destruct (Hform Hid) as (p & s & Hp & Hs & rest & Hlow).
    rewrite Hlow, re_match_numeric_form by done. simpl.
    eexists. split; [reflexivity |].
    apply described_numeric; [exact Hid |].
    repeat split; eauto.
  - assert (Hid : typeid r <> 1700) by (intros Hid; by apply Hcls, Hnum).
    destruct hl; simpl; eexists; (split; [reflexivity |]).
    + by apply described_with_length.
    + by apply described_plain.
Qed.

(** *** The loop *)

Lemma get_columns_loop_cons (r : row) (rows : list row) (columns : list column) :
  get_columns_loop (r :: rows) columns =
  match column_of_row r with
  | Ok c => get_columns_loop rows (columns ++ [c])
  | Raise e => Raise e
  end.
Proof. reflexivity. Qed.

Lemma get_columns_loop_app (pre post : list row) (columns : list column) :
  get_columns_loop (pre ++ post) columns =
  match get_columns_loop pre columns with
  | Ok cols => get_columns_loop post cols
  | Raise e => Raise e
  end.
Proof.
  revert columns. induction pre as [|r pre IH]; intros columns;
    [reflexivity |].
  rewrite <- app_comm_cons, !get_columns_loop_cons.
  destruct (column_of_row r) as [c|e]; [apply IH | reflexivity].
Qed.

Lemma get_columns_loop_covered (rows : list row) :
  Forall covered rows ->
  forall columns, exists cols,
    get_columns_loop rows columns = Ok (columns ++ cols)%list /\
    Forall2 described_by rows cols.
Proof.
  induction 1 as [|r rows Hr _ IH]; intros columns.
  - exists []. split; [by rewrite app_nil_r | constructor].
  - destruct (column_of_row_covered r Hr) as (c & Hc & Hdesc).
    destruct (IH (columns ++ [c])%list) as (cols & Hloop & Hall).
    exists (c :: cols). rewrite get_columns_loop_cons, Hc, Hloop.
    split; [by rewrite <- app_assoc | by constructor].
Qed.

Lemma get_columns_loop_no_KeyError (rows : list row) (k : Z) :
  Forall (fun r => is_Some (oid_datatype_map !! typeid r)) rows ->
  forall columns, get_columns_loop rows columns <> Raise (KeyError k).
Proof.
  induction 1 as [|r rows Hr _ IH]; intros columns; [discriminate |].
  rewrite get_columns_loop_cons.
  pose proof (column_of_row_no_KeyError r k Hr) as Hno.
  destruct (column_of_row r) as [c|e]; [apply IH | congruence].
Qed.

(** C2: when every row has a type id of the static map, and the rows of id
    1700 have a [format_type] of the form numeric(p,s), [get_columns]
    returns one descriptor per row, in order: of type Numeric with the
    precision and scale read from [format_type] for id 1700, of the mapped
    type with the row's length for the ids flagged variable-length, of the
    mapped type without arguments for the others. Whatever [format_type]
    holds, rows with ids of the map never end in the lookup failure. *)
Theorem C2_covered_ids_described (rows : list row) :
  (Forall covered rows ->
   exists cols, get_columns rows = Ok cols /\ Forall2 described_by rows cols) /\
  (Forall (fun r => is_Some (oid_datatype_map !! typeid r)) rows ->
   forall k, get_columns rows <> Raise (KeyError k)).
Proof.
  split.
  - intros Hcov. destruct (get_columns_loop_covered rows Hcov []) as (cols & H & Hall).
    exists cols. by split.
  - intros Hmapped k. by apply get_columns_loop_no_KeyError.
Qed.

(** C3: a row whose type id is not a key of the static map makes
    [get_columns] raise: no list of columns is returned, and when the rows
    before it went through, the exception is the lookup failure for that
    type id. *)
Theorem C3_unknown_id_raises (pre post : list row) (r : row) :
  oid_datatype_map !! typeid r = None ->
  (exists e, get_columns (pre ++ r :: post) = Raise e) /\
  (forall cols, get_columns pre = Ok cols ->
     get_columns (pre ++ r :: post) = Raise (KeyError (typeid r))).
Proof.
  intros Hnone. unfold get_columns. rewrite get_columns_loop_app.
  destruct (get_columns_loop pre []) as [cols|e].
  - rewrite get_columns_loop_cons, (column_of_row_unmapped r Hnone).
    split; [by eexists | by intros ? _].
  - split; [by eexists | intros ? [=]].
Qed.

End Columns.

Section ColumnsOnSamples.

Import netezza_dialect.

Lemma covered_other (r : row) (entry : coltype_class * bool) :
  oid_datatype_map !! typeid r = Some entry ->
  typeid r <> 1700 ->
  covered r.
Proof. intros Hmap Hid. split; [by exists entry | done]. Qed.

Lemma covered_numeric (r : row) (p s : string) :
  typeid r = 1700 ->
  numeric_form (format_type r) p s ->
  covered r.
Proof.
  intros Hid Hform. split; [| by exists p, s].
  rewrite Hid. by exists (Numeric, false).
Qed.

Lemma sample_rows_covered : Forall covered sample.rows.
Proof.
  unfold sample.rows.
  constructor; [| constructor; [| constructor; [| constructor]]].
  - by apply (covered_other _ (BigInteger, false)).
  - apply (covered_numeric _ "10" "2"); [reflexivity |].
    repeat split. by exists "".
  - by apply (covered_other _ (sqltypes_String, true)).
Qed.

(** The descriptors of the sample rows, computed. *)
Lemma get_columns_sample :
  get_columns sample.rows =
  Ok [ mkColumn "ID" (mkColtype BigInteger []) false;
       mkColumn "AMOUNT" (mkColtype Numeric [Some 10; Some 2]) true;
       mkColumn "LABEL" (mkColtype sqltypes_String [Some 50]) true ].
Proof. vm_compute. reflexivity. Qed.

(** A numeric row the pattern does not match stops the loop with the
    exception of [None.groups()], also ahead of an unknown type id. *)
Lemma get_columns_odd_numeric_first :
  get_columns [sample.odd_numeric_row; sample.unknown_row] =
  Raise (AttributeError "'NoneType' object has no attribute 'groups'").
Proof. vm_compute. reflexivity. Qed.

Lemma C2_covered_ids_described_witness :
  exists cols,
    get_columns sample.rows = Ok cols /\
    Forall2 described_by sample.rows cols.
Proof.
  exact (proj1 (C2_covered_ids_described sample.rows) sample_rows_covered).
Defined.

Lemma C3_unknown_id_raises_witness :
  get_columns (sample.rows ++ sample.unknown_row :: sample.rows) =
  Raise (KeyError 9999).
Proof.
  refine (proj2 (C3_unknown_id_raises sample.rows sample.rows
                   sample.unknown_row _) _ get_columns_sample).
  vm_compute. reflexivity.
Defined.

End ColumnsOnSamples.

(** ** Table existence and table id *)

Section TableLookups.

Import netezza_dialect.

Lemma filter_nil_iff {A} (f : A -> bool) (l : list A) :
  List.filter f l = [] <-> Forall (fun x => f x = false) l.
Proof.
  induction l as [|x l IH]; simpl.
  - split; [constructor | reflexivity].
  - destruct (f x) eqn:E.
    + split; [discriminate | inversion 1; congruence].
    + rewrite IH. split; [by constructor | by inversion 1].
Qed.

Lemma has_table_iff (connection : Connection) (name : string)
    (schema_arg : option string) :
  has_table connection name schema_arg = true <->
  Exists (fun o => objname o = name /\ dbname o = database_name connection)
         (_v_object_data connection).
Proof.
  unfold has_table, has_table_query.
  set (f := fun o : object_data =>
              String.eqb (objname o) name &&
              String.eqb (dbname o) (database_name connection)).
  rewrite negb_true_iff, Z.eqb_neq.
  rewrite Exists_exists.
  split.
  - intros Hlen. destruct (List.filter f _) as [|o l] eqn:E;
      [simpl in Hlen; lia |].
    assert (Hin : In o (List.filter f (_v_object_data connection)))
      by (rewrite E; by left).
    apply filter_In in Hin as [Hin Hf]. unfold f in Hf.
    apply andb_true_iff in Hf as [H1 H2].
    apply String.eqb_eq in H1, H2.
    exists o. rewrite <- list_elem_of_In in Hin. done.
  - intros (o & Hin & H1 & H2).
    assert (Hf : In o (List.filter f (_v_object_data connection))).
    { apply filter_In. split; [by apply list_elem_of_In |].
      unfold f. apply andb_true_iff. split; by apply String.eqb_eq. }
    destruct (List.filter f _); [destruct Hf | simpl; lia].
Qed.

Lemma table_oid_query_In (connection : Connection) (name : string)
    (schema_arg : option string) (t : v_table) :
  In t (table_oid_query connection schema_arg name) <->
  In t (_V_TABLE connection) /\ tablename t = name /\
  (forall s, schema_arg = Some s -> schema t = s).
Proof.
  unfold table_oid_query. rewrite filter_In, andb_true_iff, String.eqb_eq.
  destruct schema_arg as [s|].
  - rewrite String.eqb_eq. split.
    + intros (Hin & Hs & Hn). repeat split; [done.. |]. by intros ? [= <-].
    + intros (Hin & Hn & Hs). repeat split; auto.
  - split.
    + intros (Hin & _ & Hn). repeat split; [done.. |]. discriminate.
    + intros (Hin & Hn & _). repeat split; auto.
Qed.

(** C4 as stated fails: [has_table] answers yes for the
    sample table when asked under a schema that does not hold it. *)
Lemma C4_has_table_ignores_schema : ~ has_table_scoped_by_schema.
Proof.
  intros Hscoped.
  specialize (Hscoped sample.connection "ORDERS" "DBO" eq_refl).
  apply Exists_exists in Hscoped as (o & Hin & _ & Hdb & Hschema).
  simpl in Hin. rewrite !elem_of_cons, elem_of_nil in Hin.
  destruct Hin as [-> | [-> | []]]; simpl in *; discriminate.
Qed.

(** C4, amended: [has_table] answers yes exactly when the view lists the
    name under the connection's database, whatever schema is passed;
    the query of [get_table_oid] selects the rows of that table name, and
    of the schema when one is passed; [get_table_oid] raises the no such
    table error for the name when the query returns no row, and, as long
    as no first column is NULL, only then. *)
Theorem C4_table_lookups (connection : Connection) (name : string)
    (schema_arg : option string) :
  (has_table connection name schema_arg = true <->
   Exists (fun o => objname o = name /\ dbname o = database_name connection)
          (_v_object_data connection)) /\
  (forall other_schema,
     has_table connection name other_schema =
     has_table connection name schema_arg) /\
  (forall t,
     In t (table_oid_query connection schema_arg name) <->
     In t (_V_TABLE connection) /\ tablename t = name /\
     (forall s, schema_arg = Some s -> schema t = s)) /\
  (table_oid_query connection schema_arg name = [] ->
   get_table_oid connection name schema_arg = Raise (NoSuchTableError name)) /\
  (Forall (fun t => first_column t <> None) (_V_TABLE connection) ->
   get_table_oid connection name schema_arg = Raise (NoSuchTableError name) ->
   table_oid_query connection schema_arg name = []).
Proof.
  split; [apply has_table_iff |].
  split; [reflexivity |].
  split; [apply table_oid_query_In |].
  split.
  - intros Hq. unfold get_table_oid. by rewrite Hq.
  - intros Hnonnull Hraise. unfold get_table_oid in Hraise.
    destruct (table_oid_query connection schema_arg name) as [|t l] eqn:E;
      [reflexivity |].
    assert (Hin : In t (table_oid_query connection schema_arg name))
      by (rewrite E; by left).
    apply table_oid_query_In in Hin as [Hin _].
    rewrite Forall_forall in Hnonnull.
    apply list_elem_of_In, Hnonnull in Hin.
    simpl in Hraise. destruct (first_column t); [discriminate | done].
Qed.

Lemma C4_table_lookups_witness :
  get_table_oid sample.connection "ORDERS" (Some "DBO") =
  Raise (NoSuchTableError "ORDERS").
Proof.
  apply (C4_table_lookups sample.connection "ORDERS" (Some "DBO")).
  reflexivity.
Defined.

(** [get_table_oid] finds the sample table under its own schema and
    without a schema. *)
Lemma get_table_oid_sample :
  get_table_oid sample.connection "ORDERS" (Some "ADMIN") = Ok 200123 /\
  get_table_oid sample.connection "ORDERS" None = Ok 200123.
Proof. split; reflexivity. Qed.

End TableLookups.

(** ** The DISTRIBUTE ON clause *)

Section DistributeOnClause.

Import netezza_dialect.



Lemma post_create_table_default (t : string) :
  post_create_table (mkTable t (Some (DistributeOn_init []))) =
    Ok " DISTRIBUTE ON RANDOM" /\
  post_create_table (mkTable t None) = Ok " DISTRIBUTE ON RANDOM".
Proof. split; reflexivity. Qed.

(** [distribute_clause] of a [str]: [RANDOM] for [random] in any case of
    letters, and otherwise the characters of the string, separated by
    commas, between parentheses. *)
Lemma distribute_clause_str (name sel : string) (tmp : bool) (s : string) :
  distribute_clause (CreateTableAs_init name sel tmp (PyStr s)) =
  if String.eqb (py.lower s) "random" then Ok "RANDOM"
  else Ok ("(" ++ py.join "," (py.chars s) ++ ")").
Proof.
  unfold distribute_clause, CreateTableAs_init.
  cbn [cta_distribute_on pyvalue_lower pyvalue_iter mbind result_bind].
  by destruct (String.eqb (py.lower s) "random").
Qed.

Lemma distribute_clause_samples :
  distribute_clause (CreateTableAs_init "t2" "select 1" false (PyStr "Random")) =
    Ok "RANDOM" /\
  distribute_clause (CreateTableAs_init "t2" "select 1" false (PyStr "ab")) =
    Ok "(a,b)" /\
  distribute_clause (CreateTableAs_init "t2" "select 1" false (PyStr "a,b")) =
    Ok "(a,,,b)".
Proof. repeat split; reflexivity. Qed.

(** C5: [post_create_table] turns the column list a, b into (a,b) and
    [random], in any case of letters, into RANDOM; [distribute_clause]
    does so for no column list: called on a tuple or a list of column
    names it raises, as the method [lower] is missing, and so does the
    statement built from it. *)
Theorem C5_distribute_clause_column_list :
  (post_create_table (mkTable "t" (Some (DistributeOn_init ["a"; "b"]))) =
     Ok " DISTRIBUTE ON (a,b)" /\
   post_create_table (mkTable "t" (Some (DistributeOn_init ["random"]))) =
     Ok " DISTRIBUTE ON RANDOM" /\
   post_create_table (mkTable "t" (Some (DistributeOn_init ["RANDOM"]))) =
     Ok " DISTRIBUTE ON RANDOM") /\
  (forall (name sel : string) (tmp : bool) (items : list string),
     distribute_clause (CreateTableAs_init name sel tmp (PyTuple items)) =
       Raise (AttributeError "'tuple' object has no attribute 'lower'") /\
     distribute_clause (CreateTableAs_init name sel tmp (PyList items)) =
       Raise (AttributeError "'list' object has no attribute 'lower'") /\
     visit_create_table_as (CreateTableAs_init name sel tmp (PyTuple items)) =
       Raise (AttributeError "'tuple' object has no attribute 'lower'")) /\
  distribute_clause
    (CreateTableAs_init "t2" "select 1" false (PyList ["a"; "b"])) <>
  Ok "(a,b)".
Proof.
  split; [repeat split; reflexivity |].
  split; [intros; repeat split; reflexivity | discriminate].
Qed.

End DistributeOnClause.

(** * Further properties *)

(** ** The registry under runs of registrations *)

Section RegistryRuns.

Import context.

Variable cm_get_config : string -> result Config.
Variable Obj : Type.

Lemma register_all_cons (T : string) (F : factory Obj)
    (calls : list (string * factory Obj)) (map : gmap string (factory Obj)) :
  register_all ((T, F) :: calls) map =
  register_all calls (register_context_factory T F map).
Proof. reflexivity. Qed.

Lemma register_all_lookup (calls : list (string * factory Obj))
    (map : gmap string (factory Obj)) (T : string) :
  register_all calls map !! T =
  match last_registered T calls with
  | Some F => Some F
  | None => map !! T
  end.
Proof.
  revert map. induction calls as [|[T' F] calls IH]; intros map;
    [reflexivity |].
  rewrite register_all_cons, IH. cbn [last_registered].
  destruct (last_registered T calls) as [G|]; [reflexivity |].
  unfold register_context_factory.
  destruct (String.eqb_spec T' T) as [->|Hne].
  - apply lookup_insert_eq.
  - by apply lookup_insert_ne.
Qed.

(** X1: after any run of registrations, [get] of a key whose Config has type
    [T] uses the factory of the last registration for [T]; when the run has
    none for [T], it behaves as before the run. *)
Theorem X1_last_registration_wins
    (map : gmap string (factory Obj)) (calls : list (string * factory Obj))
    (config_key : string) (config : Config) :
  cm_get_config config_key = Ok config ->
  (forall F, last_registered (type config) calls = Some F ->
     get cm_get_config Obj (register_all calls map) config_key =
     create_from_config F config) /\
  (last_registered (type config) calls = None ->
   get cm_get_config Obj (register_all calls map) config_key =
   get cm_get_config Obj map config_key).
Proof.
  intros Hload. split.
  - intros F HF. apply get_registered; [exact Hload |].
    by rewrite register_all_lookup, HF.
  - intros Hnone. unfold get. rewrite Hload.
    cbn [mbind result_bind]. by rewrite register_all_lookup, Hnone.
Qed.

(** X2: when the config store fails to load the key, [get] raises that very
    exception, whatever is registered: no factory is looked up or called. *)
Theorem X2_load_failure_propagates
    (map : gmap string (factory Obj)) (config_key : string) (e : exn) :
  cm_get_config config_key = Raise e ->
  get cm_get_config Obj map config_key = Raise e.
Proof. intros Hload. unfold get. by rewrite Hload. Qed.

(** X3: registering a second factory for a type replaces the first, so that
    registering the same factory twice is registering it once; registrations
    for two different types can be made in either order. *)
Theorem X3_registration_overwrites_and_commutes
    (map : gmap string (factory Obj)) (T T' : string) (F G : factory Obj) :
  register_context_factory T G (register_context_factory T F map) =
    register_context_factory T G map /\
  register_context_factory T F (register_context_factory T F map) =
    register_context_factory T F map /\
  (T <> T' ->
   register_context_factory T F (register_context_factory T' G map) =
   register_context_factory T' G (register_context_factory T F map)).
Proof.
  unfold register_context_factory. split; [apply insert_insert_eq |].
  split; [apply insert_insert_eq |].
  intros Hne. by apply insert_insert_ne.
Qed.

End RegistryRuns.

Section RegistryRunsWitnesses.

Import context.

Lemma X1_last_registration_wins_witness :
  get sample.get_config Context
    (register_all
       [("pyetltools.data.config.DBConfig",
         mkFactory "Old" (fun _ => Raise (Exception "old factory")));
        ("JiraConfig", sample.db_factory);
        ("pyetltools.data.config.DBConfig", sample.db_factory)] ∅) "DEV" =
  Ok (Context_init (mkConfig "pyetltools.data.config.DBConfig" "DEV" None)).
Proof.
  apply (proj1 (X1_last_registration_wins sample.get_config Context ∅ _ "DEV"
                  (mkConfig "pyetltools.data.config.DBConfig" "DEV" None)
                  eq_refl) sample.db_factory).
  reflexivity.
Defined.

Lemma X2_load_failure_propagates_witness :
  get (fun _ => Raise (Exception "no such key")) Context
    (register_context_factory "JiraConfig" sample.db_factory ∅) "DEV" =
  Raise (Exception "no such key").
Proof.
  apply (X2_load_failure_propagates
           (fun _ => Raise (Exception "no such key")) Context).
  reflexivity.
Defined.

Lemma X3_registration_overwrites_and_commutes_witness :
  register_context_factory "A" sample.db_factory
    (register_context_factory "B" sample.db_factory ∅) =
  register_context_factory "B" sample.db_factory
    (register_context_factory "A" sample.db_factory ∅).
Proof.
  apply (X3_registration_overwrites_and_commutes Context ∅ "A" "B").
  discriminate.
Defined.

End RegistryRunsWitnesses.

(** ** [gen_insert], name by name *)

Section GenInsertNames.

Import misc.

Lemma quoted_column_list_cons (c c' : string) (rest : list string) :
  quoted_column_list (c :: c' :: rest) =
  "'" ++ c ++ "'" ++ "," ++ netezza_dialect.nl ++ quoted_column_list (c' :: rest).
Proof. reflexivity. Qed.

Lemma quoted_column_list_In (c : string) (columns : list string) :
  In c columns ->
  exists pre post,
    quoted_column_list columns = pre ++ ("'" ++ c ++ "'") ++ post.
Proof.
  induction columns as [|x [|x' rest] IH]; intros Hin.
  - destruct Hin.
  - destruct Hin as [->|[]]. exists "", "".
    by rewrite append_empty_l, append_empty_r.
  - rewrite quoted_column_list_cons. destruct Hin as [->|Hin].
    + exists "", ("," ++ netezza_dialect.nl ++ quoted_column_list (x' :: rest)).
      by rewrite append_empty_l, !append_assoc.
    + destruct (IH Hin) as (pre & post & ->).
      exists ("'" ++ x ++ "'" ++ "," ++ netezza_dialect.nl ++ pre), post.
      by rewrite !append_assoc.
Qed.

(** X4: every column name stands in the statement between single quotes,
    once in the column list and once more in the values list, as it is:
    quotes inside a name are not escaped. *)
Theorem X4_gen_insert_every_column_twice
    (tablename : string) (columns : list string) (c : string) :
  In c columns ->
  exists pre mid post,
    gen_insert tablename columns =
    pre ++ ("'" ++ c ++ "'") ++ mid ++ ("'" ++ c ++ "'") ++ post.
Proof.
  intros Hin. destruct (quoted_column_list_In c columns Hin) as (a & b & Hq).
  exists ("insert into " ++ tablename ++ " (" ++ a), (b ++ ") values (" ++ a),
    (b ++ ")").
  unfold gen_insert.
  change (String "," (String "010" "")) with ("," ++ netezza_dialect.nl).
  rewrite join_quoted, Hq. by rewrite !append_assoc.
Qed.

Lemma X4_gen_insert_every_column_twice_witness :
  exists pre mid post,
    gen_insert "t" ["a"; "o'k"] =
    pre ++ ("'" ++ "o'k" ++ "'") ++ mid ++ ("'" ++ "o'k" ++ "'") ++ post.
Proof.
  apply (X4_gen_insert_every_column_twice "t" ["a"; "o'k"] "o'k").
  right. by left.
Defined.

End GenInsertNames.

(** ** What the text of [limit_clause] tells *)

Section LimitClauseText.

Import netezza_dialect.

Lemma append_inv (a b c : string) : a ++ b = a ++ c -> b = c.
Proof.
  induction a as [|x a IH]; [by rewrite !append_empty_l |].
  rewrite !append_cons. intros [= H]. by apply IH.
Qed.

Lemma contains_first_char (c : ascii) (sub s : string) :
  py.has_char c s = false -> py.contains (String c sub) s = false.
Proof.
  induction s as [|b s IH]; [reflexivity |].
  cbn [py.has_char py.contains py.startswith]. intros H.
  apply orb_false_iff in H as [Hb Hs].
  destruct (ascii_dec c b); [discriminate Hb |].
  by rewrite (IH Hs).
Qed.

Lemma str_of_int_has_char (c : ascii) (n : Z) :
  py.int_char c = false -> py.has_char c (py.str_of_int n) = false.
Proof. apply has_char_all_chars, str_of_int_chars. Qed.

Lemma to_int_not_nil (n : Z) : Z.to_int n <> Pos Nil /\ Z.to_int n <> Neg Nil.
Proof.
  destruct n as [|p|p]; simpl; split; try discriminate;
    intros [= H]; by apply (Unsigned.to_uint_nonnil p).
Qed.

Lemma str_of_int_inj (a b : Z) : py.str_of_int a = py.str_of_int b -> a = b.
Proof.
  unfold py.str_of_int. intros H.
  apply (f_equal NilZero.int_of_string) in H.
  destruct (to_int_not_nil a) as [Ha1 Ha2], (to_int_not_nil b) as [Hb1 Hb2].
  rewrite !NilZero.isi in H by assumption.
  injection H as H. apply (f_equal Z.of_int) in H.
  by rewrite !DecimalZ.of_to in H.
Qed.

(** Two texts without a space, each followed by a space and more, are equal
    only part by part. *)
Lemma split_at_space (x x' r r' : string) :
  py.has_char " " x = false ->
  py.has_char " " x' = false ->
  x ++ String " " r = x' ++ String " " r' ->
  x = x' /\ r = r'.
Proof.
  revert x'. induction x as [|a x IH]; intros [|a' x'] Hx Hx';
    rewrite ?append_empty_l, ?append_cons; intros [= ]; subst.
  - done.
  - simpl in Hx'. by destruct (ascii_dec " " " ").
  - simpl in Hx. by destruct (ascii_dec " " " ").
  - simpl in Hx, Hx'. apply orb_false_iff in Hx as [_ Hx].
    apply orb_false_iff in Hx' as [_ Hx'].
    destruct (IH x' Hx Hx') as [-> ->]; done.
Qed.

Lemma no_space_no_tail (x y r : string) :
  py.has_char " " x = false -> x <> y ++ String " " r.
Proof.
  intros Hx ->. rewrite has_char_append in Hx.
  apply orb_false_iff in Hx as [_ Hx]. simpl in Hx.
  by destruct (ascii_dec " " " ").
Qed.

Lemma limit_clause_shape (sel : Select) :
  limit_clause sel =
  match _limit sel, _offset sel with
  | None, None => ""
  | _, _ => " " ++ nl ++ " LIMIT " ++ limit_clause_tail sel
  end.
Proof.
  destruct sel as [[l|] [o|]]; unfold limit_clause_tail; cbn [_limit _offset].
  - apply limit_clause_both.
  - apply limit_clause_limit_only.
  - rewrite limit_clause_offset_only. reflexivity.
  - reflexivity.
Qed.

Lemma limit_clause_tail_inj (a b : Select) :
  (is_Some (_limit a) \/ is_Some (_offset a)) ->
  (is_Some (_limit b) \/ is_Some (_offset b)) ->
  limit_clause_tail a = limit_clause_tail b -> a = b.
Proof.
  assert (Hsp : forall n, py.has_char " " (py.str_of_int n) = false)
    by (intros n; by apply str_of_int_has_char).
  assert (HA : forall n, py.str_of_int n <> "ALL").
  { intros n E. pose proof (str_of_int_has_char "A" n eq_refl) as H.
    rewrite E in H. discriminate H. }
  destruct a as [[l|] [o|]], b as [[l'|] [o'|]];
    unfold limit_clause_tail; cbn [_limit _offset]; intros Ha Hb H;
    try (destruct Ha as [[? [=]]|[? [=]]]; fail);
    try (destruct Hb as [[? [=]]|[? [=]]]; fail).
  - apply split_at_space in H as [H1 H2]; [| done..].
    apply append_inv in H2.
    by rewrite (str_of_int_inj _ _ H1), (str_of_int_inj _ _ H2).
  - symmetry in H. by apply no_space_no_tail in H.
  - apply split_at_space in H as [H1 _]; [| done..]. by apply HA in H1.
  - by apply no_space_no_tail in H.
  - by rewrite (str_of_int_inj _ _ H).
  - by apply no_space_no_tail in H.
  - apply split_at_space in H as [H1 _]; [| done..].
    symmetry in H1. by apply HA in H1.
  - symmetry in H. by apply no_space_no_tail in H.
  - apply split_at_space in H as [_ H2]; [| done..].
    apply append_inv in H2. by rewrite (str_of_int_inj _ _ H2).
Qed.

(** X5: the text is empty exactly for a select with neither limit nor
    offset; it has the word OFFSET exactly when the select has an offset,
    and the word LIMIT exactly when it has a limit or an offset. *)
Theorem X5_limit_clause_keywords (sel : Select) :
  (limit_clause sel = "" <-> _limit sel = None /\ _offset sel = None) /\
  (py.contains "OFFSET" (limit_clause sel) = true <-> is_Some (_offset sel)) /\
  (py.contains "LIMIT" (limit_clause sel) = true <->
   is_Some (_limit sel) \/ is_Some (_offset sel)).
Proof.
  assert (HO : forall n, py.has_char "O" (py.str_of_int n) = false)
    by (intros n; by apply str_of_int_has_char).
  destruct sel as [[l|] [o|]]; cbn [_limit _offset];
    rewrite ?limit_clause_both, ?limit_clause_offset_only,
      ?limit_clause_limit_only, ?limit_clause_neither.
  - split; [split; [discriminate | intros [[=] _]] |].
    split; (split; [eauto |]); intros _.
    + apply (contains_intro _ (" " ++ nl ++ " LIMIT " ++ py.str_of_int l ++ " ")
               (" " ++ py.str_of_int o)). by rewrite !append_assoc.
    + by apply (contains_intro _ (" " ++ nl ++ " ")
                  (" " ++ py.str_of_int l ++ " OFFSET " ++ py.str_of_int o)).
  - split; [split; [discriminate | intros [[=] _]] |]. split.
    + split; [| intros [? [=]]].
      rewrite contains_first_char; [discriminate |].
      by rewrite !has_char_append, HO.
    + split; [eauto |]. intros _.
      by apply (contains_intro _ (" " ++ nl ++ " ") (" " ++ py.str_of_int l)).
  - split; [split; [discriminate | intros [_ [=]]] |].
    split; (split; [eauto |]); intros _.
    + apply (contains_intro _ (" " ++ nl ++ " LIMIT ALL ")
               (" " ++ py.str_of_int o)). by rewrite !append_assoc.
    + by apply (contains_intro _ (" " ++ nl ++ " ")
                  (" ALL OFFSET " ++ py.str_of_int o)).
  - split; [done |].
    split; (split; [discriminate |]); [intros [? [=]] | intros [[? [=]]|[? [=]]]].
Qed.

(** X6: the text determines the select: two selects with the same text have
    the same limit and the same offset. *)
Theorem X6_limit_clause_injective (a b : Select) :
  limit_clause a = limit_clause b -> a = b.
Proof.
  rewrite !limit_clause_shape.
  destruct (_limit a) as [la|] eqn:Hla, (_offset a) as [oa|] eqn:Hoa,
    (_limit b) as [lb|] eqn:Hlb, (_offset b) as [ob|] eqn:Hob;
    intros H;
    try (rewrite ?append_cons in H; discriminate H);
    try (repeat (apply append_inv in H);
         apply limit_clause_tail_inj;
         [rewrite Hla, Hoa; eauto | rewrite Hlb, Hob; eauto | exact H]).
  destruct a, b; simpl in *; congruence.
Qed.

Lemma X6_limit_clause_injective_witness :
  mkSelect (Some 10) (Some 5) = mkSelect (Some 10) (Some 5).
Proof.
  apply (X6_limit_clause_injective (mkSelect (Some 10) (Some 5))
           (mkSelect (Some 10) (Some 5))).
  reflexivity.
Defined.

End LimitClauseText.

(** ** The DISTRIBUTE ON clause, case by case *)

Section DistributeOnCases.

Import netezza_dialect.

Lemma length_append (a b : string) :
  String.length (a ++ b) = (String.length a + String.length b)%nat.
Proof.
  induction a as [|x a IH]; [reflexivity |].
  rewrite append_cons. simpl. by rewrite IH.
Qed.

Lemma length_join_chars (s : string) :
  String.length (py.join "," (py.chars s)) = (2 * String.length s - 1)%nat.
Proof.
  induction s as [|a [|b s] IH]; [reflexivity | reflexivity |].
  change (py.chars (String a (String b s))) with
    (String a "" :: String b "" :: py.chars s).
  rewrite join_cons, !length_append.
  change (String b "" :: py.chars s) with (py.chars (String b s)).
  rewrite IH. simpl. lia.
Qed.



(** X8: given as a [str] that is not [random], [distribute_on] is taken
    apart into its characters: the clause is the string between parentheses
    only when the string has at most one character. *)
Theorem X8_distribute_clause_splits_str
    (name sel : string) (tmp : bool) (s : string) :
  py.lower s <> "random" ->
  distribute_clause (CreateTableAs_init name sel tmp (PyStr s)) =
    Ok ("(" ++ py.join "," (py.chars s) ++ ")") /\
  ("(" ++ py.join "," (py.chars s) ++ ")" = "(" ++ s ++ ")" <->
   (String.length s <= 1)%nat).
Proof.
  intros Hne. split.
  - rewrite distribute_clause_str.
    by destruct (String.eqb_spec (py.lower s) "random").
  - split.
    + intros H. apply (f_equal String.length) in H.
      rewrite !length_append, length_join_chars in H. simpl in H. lia.
    + destruct s as [|a [|b s]]; simpl; [reflexivity | reflexivity | lia].
Qed.

Lemma X8_distribute_clause_splits_str_witness :
  distribute_clause (CreateTableAs_init "t2" "select 1" false (PyStr "id_key")) =
  Ok "(i,d,_,k,e,y)".
Proof.
  apply (X8_distribute_clause_splits_str "t2" "select 1" false "id_key").
  discriminate.
Defined.

(** X9: [visit_create_table_as] returns a statement exactly when
    [distribute_on] is a [str]; with [random] in any case of letters the
    statement is the CREATE TABLE AS text, TEMP when temporary, closed by
    DISTRIBUTE ON RANDOM. *)
Theorem X9_create_table_as_statement (element : CreateTableAs) :
  (is_Ok (visit_create_table_as element) = true <->
   exists s, cta_distribute_on element = PyStr s) /\
  (forall s,
     cta_distribute_on element = PyStr s ->
     py.lower s = "random" ->
     visit_create_table_as element =
     Ok (nl ++ "        CREATE " ++ (if temporary element then "TEMP" else "") ++
         " TABLE " ++ new_table_name element ++ " AS (" ++ nl ++ "        " ++
         selectable element ++ nl ++ "        ) DISTRIBUTE ON RANDOM" ++ nl ++
         "    ")).
Proof.
  unfold visit_create_table_as, distribute_clause. split.
  - destruct (cta_distribute_on element) as [s|items|items];
      cbn [pyvalue_lower mbind result_bind].
    + destruct (negb _); cbn [mbind result_bind is_Ok]; split; eauto.
    + split; [discriminate | intros [? [=]]].
    + split; [discriminate | intros [? [=]]].
  - intros s -> E. cbn [pyvalue_lower mbind result_bind]. rewrite E.
    reflexivity.
Qed.

Lemma X9_create_table_as_statement_witness :
  visit_create_table_as
    (CreateTableAs_init "t2" "select 1" true (PyStr "RANDOM")) =
  Ok (nl ++ "        CREATE TEMP TABLE t2 AS (" ++ nl ++ "        select 1" ++
      nl ++ "        ) DISTRIBUTE ON RANDOM" ++ nl ++ "    ").
Proof.
  apply (proj2 (X9_create_table_as_statement
                  (CreateTableAs_init "t2" "select 1" true (PyStr "RANDOM")))
           "RANDOM"); reflexivity.
Defined.

End DistributeOnCases.

(** ** Column reflection, row by row *)

Section ColumnsMore.

Import netezza_dialect.

(** *** The pattern, read backwards *)

Lemma literal_Some (p s rest : string) :
  literal p s = Some rest -> s = p ++ rest.
Proof.
  revert s. induction p as [|a p IH]; intros s H.
  - simpl in H. injection H as ->. by rewrite append_empty_l.
  - destruct s as [|b s]; [discriminate H |]. simpl in H.
    destruct (ascii_dec a b) as [->|_]; [| discriminate H].
    rewrite append_cons. f_equal. by apply IH.
Qed.

Lemma span_digits_spec (s : string) :
  s = (span_digits s).1 ++ (span_digits s).2 /\
  py.all_chars py.is_digit (span_digits s).1 = true.
Proof.
  induction s as [|c s [IH1 IH2]]; [done |].
  simpl. destruct (py.is_digit c) eqn:E.
  - destruct (span_digits s) as [d rest]. simpl in *.
    rewrite append_cons, <- IH1, E. done.
  - done.
Qed.

Lemma digits1_Some (s d rest : string) :
  digits1 s = Some (d, rest) -> py.is_digits d = true /\ s = d ++ rest.
Proof.
  unfold digits1. destruct (span_digits_spec s) as [Hs Hd].
  destruct (span_digits s) as [[|c d'] r]; [discriminate |].
  intros [= <- <-]. simpl in *. done.
Qed.

Lemma re_match_numeric_Some (subject p s : string) :
  re_match_numeric subject = Some (p, s) ->
  py.is_digits p = true /\ py.is_digits s = true /\
  exists rest, subject = "numeric(" ++ p ++ "," ++ s ++ ")" ++ rest.
Proof.
  unfold re_match_numeric. intros H.
  destruct (literal "numeric(" subject) as [r0|] eqn:E0; [| discriminate H].
  cbn [mbind option_bind] in H.
  destruct (digits1 r0) as [[p' r1]|] eqn:E1; [| discriminate H].
  cbn [mbind option_bind] in H.
  destruct (literal "," r1) as [r2|] eqn:E2; [| discriminate H].
  cbn [mbind option_bind] in H.
  destruct (digits1 r2) as [[s' r3]|] eqn:E3; [| discriminate H].
  cbn [mbind option_bind] in H.
  destruct (literal ")" r3) as [r4|] eqn:E4; [| discriminate H].
  cbn [mbind option_bind] in H. injection H as -> ->.
  apply literal_Some in E0, E2, E4.
  apply digits1_Some in E1 as [Hp E1], E3 as [Hs E3].
  repeat split; [done.. |]. exists r4. by rewrite E0, E1, E2, E3, E4.
Qed.

(** X10: the pattern model matches exactly the subjects that start with
    [numeric(], a run of digits, a comma, a run of digits and a closing
    parenthesis, and its groups are the two runs. *)
Theorem X10_re_match_numeric_characterised (subject p s : string) :
  re_match_numeric subject = Some (p, s) <->
  py.is_digits p = true /\ py.is_digits s = true /\
  exists rest, subject = "numeric(" ++ p ++ "," ++ s ++ ")" ++ rest.
Proof.
  split; [apply re_match_numeric_Some |].
  intros (Hp & Hs & rest & ->). by apply re_match_numeric_form.
Qed.

(** *** One row *)

Lemma column_of_row_Ok (r : row) (c : column) :
  column_of_row r = Ok c ->
  covered r /\ column_name c = name r /\ column_nullable c = nullable r.
Proof.
  unfold column_of_row, covered.
  destruct (oid_datatype_map !! typeid r) as [[cls hl]|] eqn:Hmap;
    cbn [mbind result_bind]; [| discriminate].
  destruct (oid_datatype_map_numeric _ _ _ Hmap) as [Hnum _].
  destruct (decide (cls = Numeric)) as [->|Hcls].
  - destruct (re_match_numeric _) as [[p s]|] eqn:Hre;
      cbn [mbind result_bind]; [| discriminate].
    intros [= <-]. split; [| done]. split; [by eexists |].
    intros _. exists p, s. by apply re_match_numeric_Some.
  - intros H. split.
    + split; [by eexists |]. intros Hid. by apply Hnum in Hid.
    + destruct hl; cbn [mbind result_bind] in H; by injection H as <-.
Qed.

(** *** The loop *)

Lemma get_columns_loop_Ok (rows : list row) (columns cols : list column) :
  get_columns_loop rows columns = Ok cols ->
  Forall covered rows /\
  exists new,
    cols = (columns ++ new)%list /\
    map column_name new = map name rows /\
    map column_nullable new = map nullable rows.
Proof.
  revert columns. induction rows as [|r rows IH]; intros columns.
  - intros [= <-]. split; [constructor |]. exists []. by rewrite app_nil_r.
  - rewrite get_columns_loop_cons.
    destruct (column_of_row r) as [c|e] eqn:Hc; [| discriminate].
    intros H. apply IH in H as (Hcov & new & -> & Hn & Hnull).
    apply column_of_row_Ok in Hc as (Hr & Hname & Hnul).
    split; [by constructor |].
    exists (c :: new). rewrite <- app_assoc. simpl.
    by rewrite Hname, Hnul, Hn, Hnull.
Qed.



(** X12: [get_columns] returns a list exactly when every row is covered: its
    type id is a key of the static map, and for id 1700 its [format_type]
    has the form numeric(p,s). *)
Theorem X12_get_columns_returns_iff_covered (rows : list row) :
  (exists cols, get_columns rows = Ok cols) <-> Forall covered rows.
Proof.
  split.
  - intros [cols H]. by apply get_columns_loop_Ok in H as [Hcov _].
  - intros Hcov.
    destruct (get_columns_loop_covered rows Hcov []) as (cols & H & _).
    by exists cols.
Qed.

(** X13: the exception [get_columns] raises is that of the first row that
    fails: the rows after it are not looked at. *)
Theorem X13_first_failing_row_decides
    (pre post : list row) (r : row) (cols : list column) (e : exn) :
  get_columns pre = Ok cols ->
  column_of_row r = Raise e ->
  get_columns (pre ++ r :: post) = Raise e.
Proof.
  unfold get_columns. intros Hpre Hr.
  by rewrite get_columns_loop_app, Hpre, get_columns_loop_cons, Hr.
Qed.

Lemma X13_first_failing_row_decides_witness :
  get_columns (sample.rows ++ sample.odd_numeric_row :: [sample.unknown_row]) =
  Raise (AttributeError "'NoneType' object has no attribute 'groups'").
Proof.
  refine (X13_first_failing_row_decides sample.rows [sample.unknown_row]
            sample.odd_numeric_row _ _ get_columns_sample _).
  vm_compute. reflexivity.
Defined.

(** *** Decimal text and back *)

Lemma int_of_digits_from_pos (d : Decimal.uint) (acc : positive) :
  py.int_of_digits_from (Z.pos acc) (NilEmpty.string_of_uint d) =
  Z.pos (Pos.of_uint_acc d acc).
Proof.
  revert acc. induction d; intros acc; simpl; [reflexivity | ..];
    rewrite <- IHd; f_equal; unfold py.digit_value; simpl; lia.
Qed.

Lemma int_of_digits_from_zero (d : Decimal.uint) :
  py.int_of_digits_from 0 (NilEmpty.string_of_uint d) = Z.of_N (Pos.of_uint d).
Proof.
  induction d; simpl; [reflexivity | exact IHd | ..];
    apply (int_of_digits_from_pos d).
Qed.

Lemma string_of_uint_digits (d : Decimal.uint) :
  py.all_chars py.is_digit (NilEmpty.string_of_uint d) = true.
Proof. induction d; simpl; auto. Qed.

Lemma str_of_int_nonneg (n : Z) :
  0 <= n ->
  py.is_digits (py.str_of_int n) = true /\
  py.int_of_digits (py.str_of_int n) = n.
Proof.
  intros Hn. destruct n as [|p|p]; [done | | lia].
  unfold py.str_of_int, py.int_of_digits. cbn [Z.to_int NilZero.string_of_int].
  assert (Hs : NilZero.string_of_uint (Pos.to_uint p) =
               NilEmpty.string_of_uint (Pos.to_uint p)).
  { pose proof (Unsigned.to_uint_nonnil p) as Hnil.
    by destruct (Pos.to_uint p). }
  rewrite Hs. split.
  - pose proof (Unsigned.to_uint_nonnil p) as Hnil.
    pose proof (string_of_uint_digits (Pos.to_uint p)) as Hd.
    destruct (Pos.to_uint p); [done | exact Hd ..].
  - by rewrite int_of_digits_from_zero, DecimalPos.Unsigned.of_to.
Qed.

(** X14: a row of id 1700 whose [format_type] is, in any case of letters,
    numeric(p,s) with [p] and [s] written in decimal, is described as
    Numeric with exactly the precision [p] and the scale [s]. *)
Theorem X14_numeric_precision_and_scale (r : row) (p s : Z) :
  typeid r = 1700 ->
  0 <= p -> 0 <= s ->
  py.lower (format_type r) =
    "numeric(" ++ py.str_of_int p ++ "," ++ py.str_of_int s ++ ")" ->
  get_columns [r] =
  Ok [mkColumn (name r) (mkColtype Numeric [Some p; Some s]) (nullable r)].
Proof.
  intros Hid Hp Hs Hfmt.
  destruct (str_of_int_nonneg p Hp) as [Hdp Hvp].
  destruct (str_of_int_nonneg s Hs) as [Hds Hvs].
  unfold get_columns. rewrite get_columns_loop_cons.
  unfold column_of_row. rewrite Hid.
  change (oid_datatype_map !! 1700) with (Some (Numeric, false)).
  cbn [mbind result_bind]. rewrite Hfmt.
  rewrite <- (append_empty_r ")"), re_match_numeric_form by done.
  destruct (decide (Numeric = Numeric)); [| done].
  cbn [mbind result_bind]. by rewrite Hvp, Hvs.
Qed.

Lemma X14_numeric_precision_and_scale_witness :
  get_columns [mkRow "AMOUNT" 1700 true (Some 19) "NUMERIC(38,0)"] =
  Ok [mkColumn "AMOUNT" (mkColtype Numeric [Some 38; Some 0]) true].
Proof.
  apply (X14_numeric_precision_and_scale
           (mkRow "AMOUNT" 1700 true (Some 19) "NUMERIC(38,0)") 38 0);
    [reflexivity | lia | lia | reflexivity].
Defined.

End ColumnsMore.

Section ColumnsMoreWitnesses.

Import netezza_dialect.

Lemma X10_re_match_numeric_characterised_witness :
  re_match_numeric "numeric(10,2) not null" = Some ("10", "2").
Proof.
  apply (X10_re_match_numeric_characterised "numeric(10,2) not null" "10" "2").
  repeat split. by exists " not null".
Defined.

Lemma X12_get_columns_returns_iff_covered_witness :
  exists cols, get_columns sample.rows = Ok cols.
Proof.
  apply (X12_get_columns_returns_iff_covered sample.rows).
  exact sample_rows_covered.
Defined.

Lemma X5_limit_clause_keywords_witness :
  py.contains "OFFSET" (limit_clause (mkSelect None (Some 5))) = true.
Proof.
  apply (proj2 (proj1 (proj2 (X5_limit_clause_keywords
                                (mkSelect None (Some 5)))))).
  by exists 5.
Defined.

End ColumnsMoreWitnesses.

(** ** Table ids, table names and view names *)

Section Catalog.

Import netezza_dialect.

Lemma filter_head_In {A} (f : A -> bool) (l : list A) (x : A) (rest : list A) :
  List.filter f l = x :: rest -> In x l /\ f x = true.
Proof.
  intros H. apply filter_In. rewrite H. by left.
Qed.

(** X15: [get_table_oid] either raises the no such table error for the name
    it was given or returns the first column of a row of the view that has
    that table name, and the schema when one was passed. *)
Theorem X15_get_table_oid_sound (connection : Connection) (name : string)
    (schema_arg : option string) :
  (get_table_oid connection name schema_arg = Raise (NoSuchTableError name) \/
   exists oid, get_table_oid connection name schema_arg = Ok oid) /\
  (forall oid,
     get_table_oid connection name schema_arg = Ok oid ->
     exists t,
       In t (_V_TABLE connection) /\ tablename t = name /\
       first_column t = Some oid /\
       (forall s, schema_arg = Some s -> schema t = s)).
Proof.
  unfold get_table_oid.
  destruct (table_oid_query connection schema_arg name) as [|t rest] eqn:E.
  - split; [by left | discriminate].
  - assert (Hin : In t (table_oid_query connection schema_arg name))
      by (rewrite E; by left).
    apply table_oid_query_In in Hin as (Hin & Hname & Hschema).
    cbn [scalar]. destruct (first_column t) as [oid|] eqn:Hfirst.
    + split; [right; by eexists |].
      intros ? [= <-]. by exists t.
    + split; [by left | discriminate].
Qed.

Lemma X15_get_table_oid_sound_witness :
  exists t,
    In t (_V_TABLE sample.connection) /\ tablename t = "ORDERS" /\
    first_column t = Some 200123 /\
    (forall s, Some "ADMIN" = Some s -> schema t = s).
Proof.
  apply (proj2 (X15_get_table_oid_sound sample.connection "ORDERS"
                  (Some "ADMIN")) 200123).
  reflexivity.
Defined.

(** X16: [get_view_names] never returns names: for every schema argument,
    and before the connection is used, building the query text raises the
    not enough arguments error of [%], since the pattern ['_v_%'] of the
    format string opens a second conversion. *)
Theorem X16_get_view_names_raises (execute : string -> list string)
    (schema_arg : option string) :
  get_view_names execute schema_arg =
  py.Raised (py.TypeError "not enough arguments for format string").
Proof. destruct schema_arg; reflexivity. Qed.

(** [x like '_t_%'] holds of the strings of three or more characters whose
    second character is [t]. *)
Lemma like__t__spec (x : string) :
  like__t_ x = true <-> exists a b rest, x = String a (String "t" (String b rest)).
Proof.
  split.
  - destruct x as [|a [|c [|b rest]]]; simpl; try discriminate.
    destruct (ascii_dec c "t") as [->|_]; [eauto | discriminate].
  - intros (a & b & rest & ->). reflexivity.
Qed.

(** X17: [get_table_names] lists a table of the schema asked for (the
    default schema when none is passed) exactly when its name is not made of
    any character, a [t], and one or more characters: the underscores of
    the pattern stand for any character, so that names such as [atlas] are
    left out along with those that start with [_t_]. *)
Theorem X17_get_table_names_listing (default_schema_name : string)
    (connection : Connection) (schema_arg : option string) (n : string) :
  In n (get_table_names default_schema_name connection schema_arg) <->
  (exists t,
     In t (_V_TABLE connection) /\ tablename t = n /\
     schema t = match schema_arg with
                | Some s => s
                | None => default_schema_name
                end) /\
  ~ (exists a b rest, n = String a (String "t" (String b rest))).
Proof.
  unfold get_table_names. rewrite in_map_iff. split.
  - intros (t & <- & Hin). apply filter_In in Hin as [Hin Hf].
    apply andb_true_iff in Hf as [Hs Hlike].
    apply String.eqb_eq in Hs. apply negb_true_iff in Hlike.
    split; [by exists t |].
    intros Hex. apply like__t__spec in Hex. congruence.
  - intros [(t & Hin & <- & Hs) Hnot]. exists t. split; [reflexivity |].
    apply filter_In. split; [exact Hin |].
    apply andb_true_iff. split; [by apply String.eqb_eq |].
    apply negb_true_iff. destruct (like__t_ (tablename t)) eqn:E; [| done].
    by apply like__t__spec in E.
Qed.

Lemma X17_get_table_names_listing_witness :
  ~ In "atlas"
      (get_table_names "DBO"
         (mkConnection "SALES" [] [mkVTable (Some 1) "atlas" "DBO"]) None).
Proof.
  intros Hin.
  apply (X17_get_table_names_listing "DBO"
           (mkConnection "SALES" [] [mkVTable (Some 1) "atlas" "DBO"])
           None "atlas") in Hin as [_ Hnot].
  apply Hnot. by exists "a"%char, "l"%char, "as".
Defined.

End Catalog.
